(** * Unit of work: the transaction lifecycle manager of [uow.go]

    A shallow embedding of the [Uow] manager (registry of repository
    factories, nullable transaction handle, [sync.Mutex]) and of its
    methods [Register], [UnRegister], [GetRepository], [Do],
    [CommitOrRollback] and [Rollback], followed by the properties of the
    lifecycle that the specification states about them. *)

From stdpp Require Import base option list gmap strings.

Open Scope string_scope.
Open Scope list_scope.

(** ** Go values *)

(** A Go [error] value is identified with the text its [Error()] method
    yields; [errors.New] builds one from a text.  A nilable [error] is an
    [option error], [None] being [nil]. *)
Record error : Set := errors_New { Error : string }.

(** [fmt.Errorf("commit error: %s, rollback error: %s", err, resp.Error())] *)
Definition fmt_Errorf_commit_rollback (err resp : error) : error :=
  errors_New
    ("commit error: " ++ Error err ++ ", rollback error: " ++ Error resp)%string.

(** [context.Context]: an opaque token handed to the storage driver. *)
Variant Context : Set := Ctx (id : nat).

(** [*sql.Tx], when not nil: which transaction the pointer designates, and
    what the storage engine answers when it is asked to commit and to roll
    back that transaction. *)
Record sql_Tx : Set := {
  tx_id : nat;
  tx_Commit : option error;
  tx_Rollback : option error
}.

(** Calls that leave the manager, most recent first.  The record is
    instrumentation: it lets a statement count the commits, rollbacks and
    mutex operations a method issues. *)
Inductive event : Set :=
| EvLock
| EvUnlock
| EvBeginTx (ctx : Context)
| EvCommit (tx : sql_Tx)
| EvRollback (tx : sql_Tx)
| EvFactory (name : string) (tx : option sql_Tx).

(** [*sql.DB], when not nil: the answer of [BeginTx(ctx, nil)], which may
    depend on everything that happened before. *)
Record sql_DB : Set := {
  db_BeginTx : Context -> list event -> sql_Tx + error
}.

Section Manager.

(** The dynamic type of the values repository factories build; an
    [interface{}] is [option Repo], [None] being the nil interface. *)
Variable Repo : Type.

(** [type RepositoryFactory func(tx *sql.Tx) interface{}]; a func value may
    be nil. *)
Definition RepositoryFactory : Type := option (option sql_Tx -> option Repo).

(** [type Uow struct]; [mu] is [true] while the mutex is locked. *)
Record Uow : Type := {
  Db : option sql_DB;
  Tx : option sql_Tx;
  mu : bool;
  Repositories : gmap string RepositoryFactory
}.

Record state : Type := { uow : Uow; trace : list event }.

Definition set_Tx (tx : option sql_Tx) (u : Uow) : Uow :=
  {| Db := Db u; Tx := tx; mu := mu u; Repositories := Repositories u |}.

Definition set_mu (b : bool) (u : Uow) : Uow :=
  {| Db := Db u; Tx := Tx u; mu := b; Repositories := Repositories u |}.

Definition set_Repositories (r : gmap string RepositoryFactory) (u : Uow) : Uow :=
  {| Db := Db u; Tx := Tx u; mu := mu u; Repositories := r |}.

Definition with_uow (f : Uow -> Uow) (s : state) : state :=
  {| uow := f (uow s); trace := trace s |}.

Definition log (e : event) (s : state) : state :=
  {| uow := uow s; trace := e :: trace s |}.

(** ** Outcomes of a call *)

(** A call returns, panics (the runtime error "invalid memory address or nil
    pointer dereference"), dies with the fatal error "sync: unlock of
    unlocked mutex", or never returns because it waits for a mutex that is
    held.  Each outcome carries the state reached. *)
Inductive outcome (A : Type) : Type :=
| Returns (a : A) (s : state)
| Panics (s : state)
| Fatal (s : state)
| Blocks (s : state).

Arguments Returns {A} a s.
Arguments Panics {A} s.
Arguments Fatal {A} s.
Arguments Blocks {A} s.

Definition final_state {A} (o : outcome A) : state :=
  match o with
  | Returns _ s | Panics s | Fatal s | Blocks s => s
  end.

Definition M (A : Type) : Type := state -> outcome A.

#[local] Instance M_ret : MRet M := fun A a s => Returns a s.

#[local] Instance M_bind : MBind M := fun A B k m s =>
  match m s with
  | Returns a s' => k a s'
  | Panics s' => Panics s'
  | Fatal s' => Fatal s'
  | Blocks s' => Blocks s'
  end.

Definition get_uow : M Uow := fun s => Returns (uow s) s.

Definition modify_uow (f : Uow -> Uow) : M unit := fun s => Returns tt (with_uow f s).

Definition log_event (e : event) : M unit := fun s => Returns tt (log e s).

(** A call through a nil pointer or a nil func value. *)
Definition nil_dereference {A} : M A := fun s => Panics s.

(** ** The collaborators: mutex, storage handle, transaction handle *)

(** [u.mu.Lock()] *)
Definition mu_Lock : M unit := fun s =>
  if mu (uow s) then Blocks (log EvLock s)
  else Returns tt (with_uow (set_mu true) (log EvLock s)).

(** [u.mu.Unlock()] *)
Definition mu_Unlock : M unit := fun s =>
  if mu (uow s) then Returns tt (with_uow (set_mu false) (log EvUnlock s))
  else Fatal (log EvUnlock s).

(** [u.Db.BeginTx(ctx, nil)] *)
Definition Db_BeginTx (ctx : Context) : M (sql_Tx + error) := fun s =>
  match Db (uow s) with
  | None => Panics s
  | Some db => Returns (db_BeginTx db ctx (trace s)) (log (EvBeginTx ctx) s)
  end.

(** [u.Tx.Commit()]: the method reads the fields of its receiver, so a call
    through the nil handle is a nil pointer dereference. *)
Definition Tx_Commit : M (option error) := fun s =>
  match Tx (uow s) with
  | None => Panics s
  | Some tx => Returns (tx_Commit tx) (log (EvCommit tx) s)
  end.

(** [u.Tx.Rollback()] *)
Definition Tx_Rollback : M (option error) := fun s =>
  match Tx (uow s) with
  | None => Panics s
  | Some tx => Returns (tx_Rollback tx) (log (EvRollback tx) s)
  end.

(** ** The manager's methods *)

(** [NewUow]: the manager it builds. *)
Definition NewUow (ctx : Context) (db : option sql_DB) : Uow :=
  {| Db := db; Tx := None; mu := false; Repositories := ∅ |}.

(** [u.Repositories[name] = fc] *)
Definition Register (name : string) (fc : RepositoryFactory) : M unit :=
  modify_uow (fun u => set_Repositories (<[name := fc]> (Repositories u)) u).

(** [delete(u.Repositories, name)] *)
Definition UnRegister (name : string) : M unit :=
  modify_uow (fun u => set_Repositories (delete name (Repositories u)) u).

(** [u.Repositories[name]]: indexing a Go map yields the zero value, here
    the nil func, for a key that is absent. *)
Definition Repositories_index (u : Uow) (name : string) : RepositoryFactory :=
  default None (Repositories u !! name).

(** [repo := u.Repositories[name](u.Tx); return repo, nil] *)
Definition call_factory (name : string) : M (option Repo * option error) :=
  u ← get_uow;
  match Repositories_index u name with
  | None => nil_dereference
  | Some fc =>
      log_event (EvFactory name (Tx u));;
      mret (fc (Tx u), None)
  end.

Definition GetRepository (ctx : Context) (name : string)
  : M (option Repo * option error) :=
  u ← get_uow;
  match Tx u with
  | None =>
      r ← Db_BeginTx ctx;
      match r with
      | inr err => mret (None, Some err)
      | inl tx => modify_uow (set_Tx (Some tx));; call_factory name
      end
  | Some _ => call_factory name
  end.

Definition Rollback (res : option error) : M (option error) :=
  u ← get_uow;
  match Tx u with
  | None =>
      mu_Unlock;;
      mret (Some (errors_New "no transaction to rollback"))
  | Some _ =>
      err ← Tx_Rollback;
      match err with
      | Some _ => mu_Unlock;; mret err
      | None => modify_uow (set_Tx None);; mu_Unlock;; mret res
      end
  end.

Definition CommitOrRollback (res : option error) : M (option error) :=
  err ← Tx_Commit;
  match err with
  | Some e =>
      resp ← Rollback err;
      match resp with
      | Some r => mu_Unlock;; mret (Some (fmt_Errorf_commit_rollback e r))
      | None => mu_Unlock;; mret err
      end
  | None => modify_uow (set_Tx None);; mu_Unlock;; mret res
  end.

(** The callback [fn func(uow *Uow) error] receives the manager by pointer:
    it is a computation over the same state. *)
Definition Do (ctx : Context) (fn : M (option error)) : M (option error) :=
  mu_Lock;;
  u ← get_uow;
  match Tx u with
  | Some _ => mret (Some (errors_New "transaction already started"))
  | None =>
      r ← Db_BeginTx ctx;
      match r with
      | inr err => mret (Some err)
      | inl tx =>
          modify_uow (set_Tx (Some tx));;
          res ← fn;
          match res with
          | Some _ => Rollback res
          | None => CommitOrRollback res
          end
      end
  end.

End Manager.

Arguments Db {Repo} u.
Arguments Tx {Repo} u.
Arguments mu {Repo} u.
Arguments Repositories {Repo} u.
Arguments uow {Repo} s.
Arguments trace {Repo} s.
Arguments set_Tx {Repo} tx u.
Arguments set_mu {Repo} b u.
Arguments set_Repositories {Repo} r u.
Arguments with_uow {Repo} f s.
Arguments log {Repo} e s.
Arguments Returns {Repo A} a s.
Arguments Panics {Repo A} s.
Arguments Fatal {Repo A} s.
Arguments Blocks {Repo A} s.
Arguments final_state {Repo A} o.
Arguments get_uow {Repo} s.
Arguments modify_uow {Repo} f s.
Arguments log_event {Repo} e s.
Arguments nil_dereference {Repo A} s.
Arguments mu_Lock {Repo} s.
Arguments mu_Unlock {Repo} s.
Arguments Db_BeginTx {Repo} ctx s.
Arguments Tx_Commit {Repo} s.
Arguments Tx_Rollback {Repo} s.
Arguments NewUow {Repo} ctx db.
Arguments Register {Repo} name fc s.
Arguments UnRegister {Repo} name s.
Arguments Repositories_index {Repo} u name.
Arguments call_factory {Repo} name s.
Arguments GetRepository {Repo} ctx name s.
Arguments Rollback {Repo} res s.
Arguments CommitOrRollback {Repo} res s.
Arguments Do {Repo} ctx fn s.

#[global] Existing Instance M_ret.
#[global] Existing Instance M_bind.

(** ** States of the lifecycle *)

(** Idle: no transaction handle and the mutex free.  Active: a handle is
    stored and the mutex is held. *)
Definition Idle {Repo} (u : Uow Repo) : Prop := Tx u = None /\ mu u = false.

Definition Active {Repo} (u : Uow Repo) (tx : sql_Tx) : Prop :=
  Tx u = Some tx /\ mu u = true.

(** The state in which [Do] hands control to its callback: mutex taken,
    transaction begun and stored. *)
Definition callback_state {Repo} (ctx : Context) (tx : sql_Tx) (s : state Repo)
  : state Repo :=
  with_uow (set_Tx (Some tx))
    (log (EvBeginTx ctx) (with_uow (set_mu true) (log EvLock s))).

(** What [Do] does with the callback's result. *)
Definition resolution {Repo} (res : option error) : M Repo (option error) :=
  match res with
  | Some _ => Rollback res
  | None => CommitOrRollback res
  end.

(** A [Do] call on [s] proceeds: it takes the mutex and, once the storage
    engine has opened a transaction, runs its callback and resolves. *)
Definition proceeds {Repo} (s : state Repo) : Prop :=
  forall ctx (fn : M Repo (option error)) db tx,
    Db (uow s) = Some db ->
    db_BeginTx db ctx (EvLock :: trace s) = inl tx ->
    Do ctx fn s = (fn ≫= resolution) (callback_state ctx tx s).

(** ** Reading the record of calls *)

Definition is_unlock (e : event) : bool :=
  match e with EvUnlock => true | _ => false end.

Definition is_begin (e : event) : bool :=
  match e with EvBeginTx _ => true | _ => false end.

Definition is_commit (e : event) : bool :=
  match e with EvCommit _ => true | _ => false end.

Definition is_rollback (e : event) : bool :=
  match e with EvRollback _ => true | _ => false end.

Fixpoint count_events (p : event -> bool) (t : list event) : nat :=
  match t with
  | [] => 0
  | e :: t' => (if p e then 1 else 0) + count_events p t'
  end.


(** The events that invoking the factories of [names] on the handle [tx]
    leaves on record. *)
Definition factory_events (tx : sql_Tx) (names : list string) : list event :=
  rev (map (fun n => EvFactory n (Some tx)) names).

(** ** Client code used in the statements *)

(** A callback in the shape of the specification's first scenario: resolve
    the repositories [names] one after the other through the manager, give
    up at the first error, and report success otherwise. *)
Fixpoint resolve_all {Repo} (ctx : Context) (names : list string)
  : M Repo (option error) :=
  match names with
  | [] => mret None
  | name :: rest =>
      r ← GetRepository ctx name;
      match r.2 with
      | Some e => mret (Some e)
      | None => resolve_all ctx rest
      end
  end.

(** Concrete collaborators and managers on which the statements are run. *)
Module Sample.

Definition ctx : Context := Ctx 0.

Definition insufficient_funds : error := errors_New "insufficient funds".
Definition commit_failed : error := errors_New "commit failed".
Definition rollback_failed : error := errors_New "rollback failed".
Definition connection_refused : error := errors_New "connection refused".

Definition tx_good : sql_Tx :=
  {| tx_id := 1; tx_Commit := None; tx_Rollback := None |}.
Definition tx_no_rollback : sql_Tx :=
  {| tx_id := 1; tx_Commit := None; tx_Rollback := Some rollback_failed |}.
Definition tx_no_commit : sql_Tx :=
  {| tx_id := 1; tx_Commit := Some commit_failed; tx_Rollback := None |}.
Definition tx_broken : sql_Tx :=
  {| tx_id := 1; tx_Commit := Some commit_failed;
     tx_Rollback := Some rollback_failed |}.

(** A storage handle that opens [tx] on every request, and one that
    refuses every request. *)
Definition db_of (tx : sql_Tx) : sql_DB := {| db_BeginTx := fun _ _ => inl tx |}.
Definition db_down : sql_DB :=
  {| db_BeginTx := fun _ _ => inr connection_refused |}.

(** A repository instance is represented by the table it serves and the
    transaction handle it is bound to. *)
Definition repo : Type := string * option nat.

Definition repo_on (table : string) : RepositoryFactory repo :=
  Some (fun tx => Some (table, tx_id <$> tx)).

(** [NewUow(ctx, db)], and the same manager after
    [Register("users", ...)] and [Register("accounts", ...)]. *)
Definition fresh (db : sql_DB) : state repo :=
  {| uow := NewUow ctx (Some db); trace := [] |}.

Definition registered (db : sql_DB) : state repo :=
  final_state
    ((Register "users" (repo_on "users");;
      Register "accounts" (repo_on "accounts")) (fresh db)).

(** A manager whose transaction was begun lazily by [GetRepository],
    outside of [Do]: a handle is stored and the mutex is free. *)
Definition lazily_begun (db : sql_DB) : state repo :=
  final_state (GetRepository ctx "users" (registered db)).

(** The manager as [Do] leaves it to its callback. *)
Definition in_callback (tx : sql_Tx) : state repo :=
  callback_state ctx tx (registered (db_of tx)).

Definition fn_ok : M repo (option error) := mret None.
Definition fn_fail : M repo (option error) := mret (Some insufficient_funds).

End Sample.

(** A computation keeps the wiring of the manager when, however it ends, the
    storage handle and the registry are the ones it started with. *)
Definition keeps_wiring {Repo A} (m : M Repo A) : Prop :=
  forall s,
    Db (uow (final_state (m s))) = Db (uow s)
    /\ Repositories (uow (final_state (m s))) = Repositories (uow s).

(** ** The process-wide current manager *)

(** Managers are reached through pointers.  [heap] holds the managers
    allocated so far, a pointer is a position in it, and [current] is the
    package variable [var current *Uow], nil until a manager is built. *)
Record process (Repo : Type) : Type := {
  heap : list (Uow Repo);
  current : option nat
}.

Arguments heap {Repo} p.
Arguments current {Repo} p.

(** The process before any call: no manager, [current] nil. *)
Definition process_start {Repo} : process Repo :=
  {| heap := []; current := None |}.

(** [func Current() *Uow] *)
Definition Current {Repo} (p : process Repo) : option nat := current p.

(** The whole of [func NewUow(ctx, db)], which returns a pointer to a
    manager and an error: the manager of
    [NewUow] is allocated, [current] is set to point to it, and the call
    returns [current] with a nil error. *)
Definition NewUow_call {Repo} (ctx : Context) (db : option sql_DB)
    (p : process Repo) : (option nat * option error) * process Repo :=
  let p' := {| heap := heap p ++ [NewUow ctx db];
               current := Some (length (heap p)) |} in
  ((current p', None), p').

(** [*ptr]: the manager a pointer designates. *)
Definition deref {Repo} (p : process Repo) (ptr : option nat) : option (Uow Repo) :=
  a ← ptr; heap p !! a.

(** * Properties *)

(** Unfolds the methods and the monad down to the state they compute. *)
Ltac run_methods :=
  unfold Do, resolution, CommitOrRollback, Rollback, GetRepository, call_factory,
    Repositories_index, Db_BeginTx, Tx_Commit, Tx_Rollback, mu_Lock, mu_Unlock,
    get_uow, modify_uow, log_event, nil_dereference, callback_state,
    mbind, M_bind, mret, M_ret in *;
  cbn in *.

(** Splits a state into its fields and replaces the fields that the
    hypotheses determine. *)
Ltac open_state s :=
  let d := fresh "db" in
  let t := fresh "cur" in
  let m := fresh "locked" in
  let r := fresh "reps" in
  let tr := fresh "tr" in
  destruct s as [[d t m r] tr]; cbn in *; subst.

(** ** The registry *)

Section Registry.

Context {Repo : Type}.
Implicit Types (s : state Repo) (fc : RepositoryFactory Repo).

(** After [Register(name, fc)] the name resolves to [fc], whatever was
    registered under it before; the other names are untouched. *)
Lemma Register_index s name fc :
  Repositories_index (uow (final_state (Register name fc s))) name = fc.
Proof.
  unfold Repositories_index, RepositoryFactory in *. cbn.
  rewrite lookup_insert_eq. reflexivity.
Qed.

Lemma Register_index_other s name name' fc :
  name <> name' ->
  Repositories_index (uow (final_state (Register name fc s))) name'
  = Repositories_index (uow s) name'.
Proof.
  intros Hne. unfold Repositories_index, RepositoryFactory in *. cbn.
  rewrite lookup_insert_ne by exact Hne. reflexivity.
Qed.

(** After [UnRegister(name)] indexing the map at [name] yields the nil
    func. *)
Lemma UnRegister_index s name :
  Repositories_index (uow (final_state (UnRegister name s))) name = None.
Proof.
  unfold Repositories_index, RepositoryFactory in *. cbn.
  rewrite lookup_delete_eq. reflexivity.
Qed.

(** Neither operation touches the handle or the mutex. *)
Lemma Register_frame s name fc :
  Tx (uow (final_state (Register name fc s))) = Tx (uow s)
  /\ mu (uow (final_state (Register name fc s))) = mu (uow s).
Proof. split; reflexivity. Qed.

Lemma UnRegister_frame s name :
  Tx (uow (final_state (UnRegister name s))) = Tx (uow s)
  /\ mu (uow (final_state (UnRegister name s))) = mu (uow s).
Proof. split; reflexivity. Qed.

End Registry.

(** ** One step of resolution *)

Section ResolutionSteps.

Context {Repo : Type}.
Implicit Types (s : state Repo) (res : option error) (tx : sql_Tx).

(** [Rollback] with the mutex held but no handle stored. *)
Lemma Rollback_locked_no_tx s res :
  Tx (uow s) = None -> mu (uow s) = true ->
  Rollback res s =
    Returns (Some (errors_New "no transaction to rollback"))
            (with_uow (set_mu false) (log EvUnlock s)).
Proof. intros Htx Hmu. open_state s. reflexivity. Qed.

(** [Rollback] in the Active state when the storage engine rolls back. *)
Lemma Rollback_active_ok s res tx :
  Active (uow s) tx -> tx_Rollback tx = None ->
  Rollback res s =
    Returns res
      (with_uow (set_mu false)
         (log EvUnlock (with_uow (set_Tx None) (log (EvRollback tx) s)))).
Proof.
  intros [Htx Hmu] Hrb. open_state s. run_methods. rewrite Hrb. reflexivity.
Qed.

(** [Rollback] in the Active state when the storage engine refuses. *)
Lemma Rollback_active_fails s res tx r :
  Active (uow s) tx -> tx_Rollback tx = Some r ->
  Rollback res s =
    Returns (Some r)
      (with_uow (set_mu false) (log EvUnlock (log (EvRollback tx) s))).
Proof.
  intros [Htx Hmu] Hrb. open_state s. run_methods. rewrite Hrb. reflexivity.
Qed.

(** A rollback that is handed a non-nil error never answers nil: on success
    it hands that error back, on failure it reports its own.  The branch of
    [CommitOrRollback] that returns the commit error alone is therefore never
    taken. *)
Lemma Rollback_passthrough_not_nil s e s' :
  Rollback (Some e) s <> Returns None s'.
Proof.
  open_state s. run_methods.
  destruct cur as [tx|]; cbn.
  - destruct (tx_Rollback tx); destruct locked; cbn; discriminate.
  - destruct locked; cbn; discriminate.
Qed.

(** [CommitOrRollback] in the Active state when the storage engine commits. *)
Lemma CommitOrRollback_active_ok s res tx :
  Active (uow s) tx -> tx_Commit tx = None ->
  CommitOrRollback res s =
    Returns res
      (with_uow (set_mu false)
         (log EvUnlock (with_uow (set_Tx None) (log (EvCommit tx) s)))).
Proof.
  intros [Htx Hmu] Hc. open_state s. run_methods. rewrite Hc. reflexivity.
Qed.

(** [CommitOrRollback] in the Active state when the storage engine refuses
    the commit: the rollback releases the mutex, and the release that
    follows it finds the mutex free. *)
Lemma CommitOrRollback_active_fails s res tx e :
  Active (uow s) tx -> tx_Commit tx = Some e ->
  CommitOrRollback res s =
    Fatal
      (log EvUnlock
         (with_uow (set_mu false)
            (log EvUnlock
               (with_uow (set_Tx (match tx_Rollback tx with Some _ => Some tx | None => None end))
                  (log (EvRollback tx) (log (EvCommit tx) s)))))).
Proof.
  intros [Htx Hmu] Hc. open_state s. run_methods. rewrite Hc. cbn.
  destruct (tx_Rollback tx); reflexivity.
Qed.

(** From the Idle state, once the storage engine has opened a transaction,
    [Do] runs the callback in [callback_state] and then resolves. *)
Lemma Do_from_idle ctx (fn : M Repo (option error)) s db tx :
  Idle (uow s) -> Db (uow s) = Some db ->
  db_BeginTx db ctx (EvLock :: trace s) = inl tx ->
  Do ctx fn s = (fn ≫= resolution) (callback_state ctx tx s).
Proof.
  intros [Htx Hmu] Hdb Hbegin. open_state s. run_methods. rewrite Hbegin. cbn.
  destruct (fn _) as [[e|] s2|s2|s2|s2]; reflexivity.
Qed.

Lemma Idle_proceeds s : Idle (uow s) -> proceeds s.
Proof. intros Hidle ctx fn db tx. apply Do_from_idle. exact Hidle. Qed.

(** The state handed to the callback is Active. *)
Lemma callback_state_Active ctx tx s : Active (uow (callback_state ctx tx s)) tx.
Proof. split; reflexivity. Qed.

End ResolutionSteps.

(** ** Commit / rollback resolution *)

(** C10. When the manager holds no transaction handle, [CommitOrRollback]
    calls [Commit] through the nil handle and panics, whatever the state of
    the mutex; [Rollback] tests the handle first and never ends in that
    panic.  A stored handle is thus needed for [CommitOrRollback] to
    return. *)
Theorem CommitOrRollback_nil_handle_panics {Repo} (s : state Repo) (res : option error) :
  Tx (uow s) = None ->
  CommitOrRollback res s = Panics s
  /\ (forall r s', CommitOrRollback res s <> Returns r s')
  /\ (forall s', Rollback res s <> Panics s').
Proof.
  intros Htx. open_state s. run_methods.
  repeat split; try discriminate.
  intros s'. destruct locked; cbn; discriminate.
Qed.

Lemma CommitOrRollback_nil_handle_panics_witness :
  Tx (uow (Sample.fresh (Sample.db_of Sample.tx_good))) = None
  /\ CommitOrRollback None (Sample.fresh (Sample.db_of Sample.tx_good))
     = Panics (Sample.fresh (Sample.db_of Sample.tx_good)).
Proof.
  split; [reflexivity|].
  apply (CommitOrRollback_nil_handle_panics
           (Sample.fresh (Sample.db_of Sample.tx_good)) None).
  reflexivity.
Defined.

(** C7. On an Idle manager, which holds no transaction and whose mutex is
    free, [Rollback] does not return the error "no transaction to rollback":
    the release of the mutex that precedes the [return] is the fatal error
    "unlock of unlocked mutex". *)
Theorem Rollback_idle_is_fatal {Repo} (s : state Repo) (res : option error) :
  Idle (uow s) ->
  Rollback res s = Fatal (log EvUnlock s)
  /\ (forall r s', Rollback res s <> Returns r s').
Proof.
  intros [Htx Hmu]. open_state s. run_methods. split; [reflexivity|discriminate].
Qed.

Lemma Rollback_idle_is_fatal_witness :
  Idle (uow (Sample.fresh (Sample.db_of Sample.tx_good)))
  /\ Rollback None (Sample.fresh (Sample.db_of Sample.tx_good))
     = Fatal (log EvUnlock (Sample.fresh (Sample.db_of Sample.tx_good))).
Proof.
  split; [split; reflexivity|].
  apply (Rollback_idle_is_fatal (Sample.fresh (Sample.db_of Sample.tx_good)) None).
  split; reflexivity.
Defined.

(** C3. In the Active state, when the commit is refused, [CommitOrRollback]
    calls [Unlock] twice, once inside [Rollback] and once after it; the
    second call finds the mutex free and is fatal.  This holds whether the
    rollback succeeds or not. *)
Theorem CommitOrRollback_failed_commit_unlocks_twice {Repo}
    (s : state Repo) (res : option error) (tx : sql_Tx) (e : error) :
  Active (uow s) tx -> tx_Commit tx = Some e ->
  exists s',
    CommitOrRollback res s = Fatal s'
    /\ trace s' =
         EvUnlock :: EvUnlock :: EvRollback tx :: EvCommit tx
           :: trace s
    /\ count_events is_unlock (trace s') = 2 + count_events is_unlock (trace s).
Proof.
  intros Hact Hc. rewrite (CommitOrRollback_active_fails s res tx e Hact Hc).
  eexists. split; [reflexivity|]. split; reflexivity.
Qed.

Lemma CommitOrRollback_failed_commit_unlocks_twice_witness :
  Active (uow (Sample.in_callback Sample.tx_no_commit)) Sample.tx_no_commit
  /\ tx_Commit Sample.tx_no_commit = Some Sample.commit_failed
  /\ exists s',
       CommitOrRollback None (Sample.in_callback Sample.tx_no_commit) = Fatal s'
       /\ count_events is_unlock (trace s') = 2.
Proof.
  split; [split; reflexivity|]. split; [reflexivity|].
  destruct (CommitOrRollback_failed_commit_unlocks_twice
              (Sample.in_callback Sample.tx_no_commit) None
              Sample.tx_no_commit Sample.commit_failed)
    as (s' & Hrun & _ & Hcount).
  - split; reflexivity.
  - reflexivity.
  - exists s'. split; [exact Hrun|exact Hcount].
Defined.

(** C6. With a handle stored, a refused commit never lets
    [CommitOrRollback] return: neither the combined error nor the commit
    error reaches the caller, the call dies in a release of the mutex. *)
Theorem CommitOrRollback_failed_commit_never_returns {Repo}
    (s : state Repo) (res : option error) (tx : sql_Tx) (e : error) :
  Tx (uow s) = Some tx -> tx_Commit tx = Some e ->
  (exists s', CommitOrRollback res s = Fatal s')
  /\ (forall r s', CommitOrRollback res s <> Returns r s').
Proof.
  intros Htx Hc. open_state s. run_methods. rewrite Hc. cbn.
  destruct (tx_Rollback tx), locked; cbn; split; (eexists; reflexivity) || discriminate.
Qed.

Lemma CommitOrRollback_failed_commit_never_returns_witness :
  Tx (uow (Sample.in_callback Sample.tx_broken)) = Some Sample.tx_broken
  /\ tx_Commit Sample.tx_broken = Some Sample.commit_failed
  /\ forall r s',
       CommitOrRollback None (Sample.in_callback Sample.tx_broken) <> Returns r s'.
Proof.
  split; [reflexivity|]. split; [reflexivity|].
  apply (CommitOrRollback_failed_commit_never_returns
           (Sample.in_callback Sample.tx_broken) None
           Sample.tx_broken Sample.commit_failed); reflexivity.
Defined.

(** ** Failures of [Do] before the callback *)

(** C1. When [Do] takes the free mutex and then fails before the callback,
    because a handle is already stored or because the storage engine refuses
    to open a transaction, it returns the error with the mutex still held:
    no [Unlock] was issued, and every later [Do] on the manager waits for
    the mutex forever. *)
Theorem Do_early_failure_keeps_mutex {Repo}
    (ctx : Context) (fn : M Repo (option error)) (s : state Repo) (err : error) :
  mu (uow s) = false ->
  ((exists tx, Tx (uow s) = Some tx)
     /\ err = errors_New "transaction already started"
   \/ Tx (uow s) = None
     /\ exists db, Db (uow s) = Some db
                   /\ db_BeginTx db ctx (EvLock :: trace s) = inr err) ->
  exists s',
    Do ctx fn s = Returns (Some err) s'
    /\ mu (uow s') = true
    /\ count_events is_unlock (trace s') = count_events is_unlock (trace s)
    /\ forall ctx' fn', Do ctx' fn' s' = Blocks (log EvLock s').
Proof.
  intros Hmu [[[tx Htx] ->] | [Htx (db & Hdb & Hbegin)]];
    open_state s; run_methods.
  - eexists. repeat split.
  - rewrite Hbegin. cbn. eexists. repeat split.
Qed.

Lemma Do_early_failure_keeps_mutex_witness :
  mu (uow (Sample.fresh Sample.db_down)) = false
  /\ exists s',
       Do Sample.ctx Sample.fn_ok (Sample.fresh Sample.db_down)
         = Returns (Some Sample.connection_refused) s'
       /\ mu (uow s') = true
       /\ Do Sample.ctx Sample.fn_ok s' = Blocks (log EvLock s').
Proof.
  split; [reflexivity|].
  destruct (Do_early_failure_keeps_mutex Sample.ctx Sample.fn_ok
              (Sample.fresh Sample.db_down) Sample.connection_refused)
    as (s' & Hrun & Hmu & _ & Hnext).
  - reflexivity.
  - right. split; [reflexivity|]. exists Sample.db_down. split; reflexivity.
  - exists s'. split; [exact Hrun|]. split; [exact Hmu|]. apply Hnext.
Defined.

(** The other failing path of [Do]: a handle begun lazily by
    [GetRepository] is stored when [Do] is called. *)
Example Do_already_started_keeps_mutex :
  exists s',
    Do Sample.ctx Sample.fn_ok (Sample.lazily_begun (Sample.db_of Sample.tx_good))
      = Returns (Some (errors_New "transaction already started")) s'
    /\ mu (uow s') = true
    /\ Do Sample.ctx Sample.fn_ok s' = Blocks (log EvLock s').
Proof. eexists. repeat split. Qed.

(** A [Do] started while the mutex is held, here from inside the callback
    of another [Do], is not turned away with an error: it waits in [Lock]. *)
Example Do_inside_Do_blocks :
  exists s',
    Do Sample.ctx (Do Sample.ctx Sample.fn_ok)
       (Sample.registered (Sample.db_of Sample.tx_good))
      = Blocks s'.
Proof. eexists. vm_compute. reflexivity. Qed.

(** ** Repository resolution *)

(** C2. For a name that has no registered factory, [GetRepository] calls
    the nil func that indexing the map yields: with a handle stored, as
    inside [Do], the call panics; in general it either panics or, when the
    lazy begin is refused, returns the nil repository with the error of the
    storage engine.  No error about the missing repository is produced. *)
Theorem GetRepository_unregistered_panics {Repo}
    (ctx : Context) (name : string) (s : state Repo) :
  Repositories (uow s) !! name = None ->
  (forall tx, Tx (uow s) = Some tx -> GetRepository ctx name s = Panics s)
  /\ ((exists s', GetRepository ctx name s = Panics s')
      \/ exists db err,
           Tx (uow s) = None /\ Db (uow s) = Some db
           /\ db_BeginTx db ctx (trace s) = inr err
           /\ GetRepository ctx name s
              = Returns (None, Some err) (log (EvBeginTx ctx) s)).
Proof.
  intros Hname. unfold RepositoryFactory in *.
  assert (Hcall : forall s1 : state Repo,
             Repositories (uow s1) = Repositories (uow s) ->
             call_factory name s1 = Panics s1).
  { intros s1 Hreps. unfold call_factory, Repositories_index, get_uow,
      nil_dereference, mbind, M_bind. cbv beta.
    unfold RepositoryFactory in *. rewrite Hreps, Hname. reflexivity. }
  unfold GetRepository, get_uow, Db_BeginTx, modify_uow, mbind, M_bind, mret, M_ret.
  split.
  - intros tx ->. apply Hcall. reflexivity.
  - destruct (Tx (uow s)) as [tx|]; [left; eexists; apply Hcall; reflexivity|].
    destruct (Db (uow s)) as [db|]; [|left; eexists; reflexivity].
    destruct (db_BeginTx db ctx (trace s)) as [tx|err] eqn:Hbegin.
    + left. eexists. apply Hcall. reflexivity.
    + right. exists db, err. repeat split. exact Hbegin.
Qed.

Lemma GetRepository_unregistered_panics_witness :
  Repositories (uow (Sample.in_callback Sample.tx_good)) !! "orders" = None
  /\ GetRepository Sample.ctx "orders" (Sample.in_callback Sample.tx_good)
     = Panics (Sample.in_callback Sample.tx_good).
Proof.
  split; [vm_compute; reflexivity|].
  apply (GetRepository_unregistered_panics Sample.ctx "orders"
           (Sample.in_callback Sample.tx_good)) with (tx := Sample.tx_good).
  - vm_compute; reflexivity.
  - reflexivity.
Defined.

(** ** [Do] once the callback has run *)

(** C4. When the callback returns a non-nil error [e] and leaves the handle
    and the mutex as [Do] set them, [Do] issues exactly one rollback on the
    transaction; it returns [e] unchanged when that rollback succeeds, and
    the error of the rollback when it fails. *)
Theorem Do_callback_error_rolls_back_once {Repo}
    (ctx : Context) (fn : M Repo (option error)) (s s2 : state Repo)
    (db : sql_DB) (tx : sql_Tx) (e : error) :
  Idle (uow s) -> Db (uow s) = Some db ->
  db_BeginTx db ctx (EvLock :: trace s) = inl tx ->
  fn (callback_state ctx tx s) = Returns (Some e) s2 ->
  Active (uow s2) tx ->
  exists s',
    Do ctx fn s
      = Returns (match tx_Rollback tx with Some r => Some r | None => Some e end) s'
    /\ trace s' = EvUnlock :: EvRollback tx :: trace s2
    /\ count_events is_rollback (trace s')
       = 1 + count_events is_rollback (trace s2).
Proof.
  intros Hidle Hdb Hbegin Hfn Hact.
  rewrite (Do_from_idle ctx fn s db tx Hidle Hdb Hbegin).
  unfold mbind, M_bind. rewrite Hfn. unfold resolution.
  destruct (tx_Rollback tx) as [r|] eqn:Hrb.
  - rewrite (Rollback_active_fails s2 (Some e) tx r Hact Hrb).
    eexists. repeat split.
  - rewrite (Rollback_active_ok s2 (Some e) tx Hact Hrb).
    eexists. repeat split.
Qed.

Lemma Do_callback_error_rolls_back_once_witness :
  Idle (uow (Sample.registered (Sample.db_of Sample.tx_good)))
  /\ exists s',
       Do Sample.ctx Sample.fn_fail (Sample.registered (Sample.db_of Sample.tx_good))
         = Returns (Some Sample.insufficient_funds) s'
       /\ count_events is_rollback (trace s') = 1.
Proof.
  split; [split; reflexivity|].
  destruct (Do_callback_error_rolls_back_once Sample.ctx Sample.fn_fail
              (Sample.registered (Sample.db_of Sample.tx_good))
              (Sample.in_callback Sample.tx_good)
              (Sample.db_of Sample.tx_good) Sample.tx_good
              Sample.insufficient_funds)
    as (s' & Hrun & _ & Hcount); try reflexivity.
  - split; reflexivity.
  - split; reflexivity.
  - exists s'. split; [exact Hrun|exact Hcount].
Defined.

(** The transaction was begun and the callback returned "insufficient
    funds", yet [Do] returns another error: the rollback failed and its
    error is what comes back. *)
Lemma Do_callback_error_replaced_counterexample :
  Sample.fn_fail (Sample.in_callback Sample.tx_no_rollback)
    = Returns (Some Sample.insufficient_funds)
              (Sample.in_callback Sample.tx_no_rollback)
  /\ (exists s',
        Do Sample.ctx Sample.fn_fail
           (Sample.registered (Sample.db_of Sample.tx_no_rollback))
          = Returns (Some Sample.rollback_failed) s')
  /\ ~ exists s',
        Do Sample.ctx Sample.fn_fail
           (Sample.registered (Sample.db_of Sample.tx_no_rollback))
          = Returns (Some Sample.insufficient_funds) s'.
Proof.
  split; [reflexivity|]. split.
  - eexists. vm_compute. reflexivity.
  - intros [s' H]. vm_compute in H. discriminate H.
Qed.

(** C5. When the callback leaves the handle and the mutex as [Do] set them,
    and the step that resolves the transaction is a rollback (callback
    error) or a commit that succeeds, [Do] returns with the mutex released;
    the handle is cleared, unless the callback failed and the rollback
    failed too, in which case the handle stays stored.  Once the handle is
    cleared the manager is Idle and a later [Do] proceeds. *)
Theorem Do_completion_state {Repo}
    (ctx : Context) (fn : M Repo (option error)) (s s2 : state Repo)
    (db : sql_DB) (tx : sql_Tx) (res : option error) :
  Idle (uow s) -> Db (uow s) = Some db ->
  db_BeginTx db ctx (EvLock :: trace s) = inl tx ->
  fn (callback_state ctx tx s) = Returns res s2 ->
  Active (uow s2) tx ->
  (res = None -> tx_Commit tx = None) ->
  exists r s',
    Do ctx fn s = Returns r s'
    /\ mu (uow s') = false
    /\ Tx (uow s')
       = match res, tx_Rollback tx with
         | Some _, Some _ => Some tx
         | _, _ => None
         end
    /\ (Tx (uow s') = None -> Idle (uow s') /\ proceeds s').
Proof.
  intros Hidle Hdb Hbegin Hfn Hact Hcommit.
  rewrite (Do_from_idle ctx fn s db tx Hidle Hdb Hbegin).
  unfold mbind, M_bind. rewrite Hfn. unfold resolution.
  destruct res as [e|].
  - destruct (tx_Rollback tx) as [r|] eqn:Hrb.
    + rewrite (Rollback_active_fails s2 (Some e) tx r Hact Hrb).
      eexists _, _. split; [reflexivity|]. split; [reflexivity|].
      split; [apply Hact|]. cbn. destruct Hact as [-> _]. discriminate.
    + rewrite (Rollback_active_ok s2 (Some e) tx Hact Hrb).
      eexists _, _. repeat split. apply Idle_proceeds. split; reflexivity.
  - rewrite (CommitOrRollback_active_ok s2 None tx Hact (Hcommit eq_refl)).
    eexists _, _. repeat split. apply Idle_proceeds. split; reflexivity.
Qed.

Lemma Do_completion_state_witness :
  Idle (uow (Sample.registered (Sample.db_of Sample.tx_good)))
  /\ exists r s',
       Do Sample.ctx Sample.fn_ok (Sample.registered (Sample.db_of Sample.tx_good))
         = Returns r s'
       /\ Idle (uow s') /\ proceeds s'.
Proof.
  split; [split; reflexivity|].
  destruct (Do_completion_state Sample.ctx Sample.fn_ok
              (Sample.registered (Sample.db_of Sample.tx_good))
              (Sample.in_callback Sample.tx_good)
              (Sample.db_of Sample.tx_good) Sample.tx_good None)
    as (r & s' & Hrun & _ & Htx & Hnext); try reflexivity.
  - split; reflexivity.
  - split; reflexivity.
  - exists r, s'. split; [exact Hrun|]. apply Hnext. exact Htx.
Defined.

(** [Do] reached the callback and completed, but the manager is not Idle:
    the rollback failed, the handle is still stored, and the next [Do] is
    turned away with "transaction already started". *)
Lemma Do_completion_not_idle_counterexample :
  exists r s',
    Do Sample.ctx Sample.fn_fail
       (Sample.registered (Sample.db_of Sample.tx_no_rollback))
      = Returns r s'
    /\ Tx (uow s') = Some Sample.tx_no_rollback
    /\ ~ Idle (uow s')
    /\ exists s'',
         Do Sample.ctx Sample.fn_ok s'
           = Returns (Some (errors_New "transaction already started")) s''.
Proof.
  eexists _, _. split; [vm_compute; reflexivity|].
  split; [reflexivity|]. split.
  - intros [Htx _]. discriminate Htx.
  - eexists. vm_compute. reflexivity.
Qed.

(** C8. When the callback returns nil and leaves the handle and the mutex
    as [Do] set them, [Do] issues exactly one commit; when that commit
    succeeds the manager ends Idle and [Do] returns nil. *)
Theorem Do_callback_ok_commits_once {Repo}
    (ctx : Context) (fn : M Repo (option error)) (s s2 : state Repo)
    (db : sql_DB) (tx : sql_Tx) :
  Idle (uow s) -> Db (uow s) = Some db ->
  db_BeginTx db ctx (EvLock :: trace s) = inl tx ->
  fn (callback_state ctx tx s) = Returns None s2 ->
  Active (uow s2) tx ->
  count_events is_commit (trace (final_state (Do ctx fn s)))
    = 1 + count_events is_commit (trace s2)
  /\ (tx_Commit tx = None ->
      exists s',
        Do ctx fn s = Returns None s'
        /\ Idle (uow s')
        /\ trace s' = EvUnlock :: EvCommit tx :: trace s2).
Proof.
  intros Hidle Hdb Hbegin Hfn Hact.
  rewrite (Do_from_idle ctx fn s db tx Hidle Hdb Hbegin).
  unfold mbind, M_bind. rewrite Hfn. unfold resolution.
  destruct (tx_Commit tx) as [e|] eqn:Hc.
  - rewrite (CommitOrRollback_active_fails s2 None tx e Hact Hc).
    split; [reflexivity|discriminate].
  - rewrite (CommitOrRollback_active_ok s2 None tx Hact Hc).
    split; [reflexivity|]. intros _. eexists. repeat split.
Qed.

Lemma Do_callback_ok_commits_once_witness :
  Idle (uow (Sample.registered (Sample.db_of Sample.tx_good)))
  /\ exists s',
       Do Sample.ctx Sample.fn_ok (Sample.registered (Sample.db_of Sample.tx_good))
         = Returns None s'
       /\ Idle (uow s')
       /\ count_events is_commit (trace s') = 1.
Proof.
  split; [split; reflexivity|].
  destruct (Do_callback_ok_commits_once Sample.ctx Sample.fn_ok
              (Sample.registered (Sample.db_of Sample.tx_good))
              (Sample.in_callback Sample.tx_good)
              (Sample.db_of Sample.tx_good) Sample.tx_good)
    as [Hcount Hok]; try reflexivity.
  - split; reflexivity.
  - split; reflexivity.
  - destruct (Hok eq_refl) as (s' & Hrun & Hidle & _).
    exists s'. split; [exact Hrun|]. split; [exact Hidle|].
    rewrite Hrun in Hcount. exact Hcount.
Defined.

(** The transaction was begun and the callback returned nil, yet [Do] does
    not return nil: the commit was refused. *)
Lemma Do_callback_ok_not_nil_counterexample :
  Sample.fn_ok (Sample.in_callback Sample.tx_no_commit)
    = Returns None (Sample.in_callback Sample.tx_no_commit)
  /\ ~ exists s',
        Do Sample.ctx Sample.fn_ok
           (Sample.registered (Sample.db_of Sample.tx_no_commit))
          = Returns None s'.
Proof.
  split; [reflexivity|].
  intros [s' H]. vm_compute in H. discriminate H.
Qed.

(** ** Repository resolution inside [Do] *)

Lemma count_events_app p (t1 t2 : list event) :
  count_events p (t1 ++ t2) = count_events p t1 + count_events p t2.
Proof.
  induction t1 as [|e t1 IH]; cbn; [reflexivity|]. rewrite IH. lia.
Qed.

Lemma count_begin_factory_events tx names :
  count_events is_begin (factory_events tx names) = 0.
Proof.
  unfold factory_events. induction names as [|n names IH]; cbn; [reflexivity|].
  rewrite count_events_app, IH. reflexivity.
Qed.



Section Resolution.

Context {Repo : Type}.
Implicit Types (s : state Repo) (tx : sql_Tx).

(** With a handle stored, [GetRepository] begins nothing: it hands the
    stored handle to the registered factory and changes only the record. *)
Lemma GetRepository_active ctx name s tx fc :
  Tx (uow s) = Some tx ->
  Repositories_index (uow s) name = Some fc ->
  GetRepository ctx name s
  = Returns (fc (Some tx), None) (log (EvFactory name (Some tx)) s).
Proof.
  intros Htx Hfc.
  unfold GetRepository, call_factory, get_uow, log_event, mbind, M_bind, mret, M_ret.
  cbv beta. rewrite Htx. cbv beta iota. rewrite Hfc, Htx. reflexivity.
Qed.

(** A run of resolutions in the Active state: every factory receives the
    stored handle, and the manager itself is unchanged. *)
Lemma resolve_all_active ctx names : forall s tx,
  Tx (uow s) = Some tx ->
  Forall (fun n => is_Some (Repositories_index (uow s) n)) names ->
  resolve_all ctx names s
  = Returns None {| uow := uow s; trace := factory_events tx names ++ trace s |}.
Proof.
  induction names as [|n names IH]; intros s tx Htx Hreg.
  - destruct s. reflexivity.
  - inversion Hreg as [|? ? [fc Hfc] Hrest]; subst.
    cbn [resolve_all]. unfold mbind, M_bind.
    rewrite (GetRepository_active ctx n s tx fc Htx Hfc). cbn [snd].
    rewrite (IH (log (EvFactory n (Some tx)) s) tx Htx Hrest).
    unfold factory_events. cbn. rewrite <- app_assoc. reflexivity.
Qed.

End Resolution.



(** * Further properties of the methods *)

(** ** Registration and resolution *)

(** X1. With a handle stored, resolving a name right after registering a
    factory under it invokes that factory on the stored handle and returns
    its product with a nil error; no transaction is begun. *)
Theorem Register_then_GetRepository {Repo}
    (ctx : Context) (name : string) (f : option sql_Tx -> option Repo)
    (s : state Repo) (tx : sql_Tx) :
  Tx (uow s) = Some tx ->
  (Register name (Some f);; GetRepository ctx name) s
  = Returns (f (Some tx), None)
      (log (EvFactory name (Some tx)) (final_state (Register name (Some f) s))).
Proof.
  intros Htx. unfold mbind at 1, M_bind at 1.
  change (Register name (Some f) s)
    with (Returns (A := unit) tt (final_state (Register name (Some f) s))).
  cbv beta iota.
  apply GetRepository_active; [exact Htx|apply Register_index].
Qed.

Lemma Register_then_GetRepository_witness :
  Tx (uow (Sample.in_callback Sample.tx_good)) = Some Sample.tx_good
  /\ exists s',
       (Register "orders" (Sample.repo_on "orders");;
        GetRepository Sample.ctx "orders") (Sample.in_callback Sample.tx_good)
       = Returns (Some ("orders", Some 1), None) s'.
Proof.
  split; [reflexivity|].
  exists (log (EvFactory "orders" (Some Sample.tx_good))
            (final_state (Register "orders" (Sample.repo_on "orders")
                            (Sample.in_callback Sample.tx_good)))).
  exact (Register_then_GetRepository Sample.ctx "orders"
           (fun tx => Some ("orders", tx_id <$> tx))
           (Sample.in_callback Sample.tx_good) Sample.tx_good eq_refl).
Defined.

(** X2. Registering twice under one name keeps the last factory only: the
    manager is the one that the second registration alone would give. *)
Theorem Register_overwrites {Repo}
    (name : string) (fc1 fc2 : RepositoryFactory Repo) (s : state Repo) :
  (Register name fc1;; Register name fc2) s = Register name fc2 s.
Proof.
  open_state s. unfold Register, modify_uow, with_uow, set_Repositories,
    mbind, M_bind. cbn. unfold RepositoryFactory in *.
  rewrite insert_insert_eq. reflexivity.
Qed.

(** X3. Registrations under different names do not depend on their
    order. *)
Theorem Register_commutes {Repo}
    (n1 n2 : string) (fc1 fc2 : RepositoryFactory Repo) (s : state Repo) :
  n1 <> n2 ->
  (Register n1 fc1;; Register n2 fc2) s = (Register n2 fc2;; Register n1 fc1) s.
Proof.
  intros Hne. open_state s. unfold Register, modify_uow, with_uow,
    set_Repositories, mbind, M_bind. cbn. unfold RepositoryFactory in *.
  rewrite (insert_insert_ne _ n2 n1) by congruence. reflexivity.
Qed.

Lemma Register_commutes_witness :
  "users" <> "accounts"
  /\ (Register "users" (Sample.repo_on "users");;
      Register "accounts" (Sample.repo_on "accounts"))
       (Sample.fresh Sample.db_down)
     = (Register "accounts" (Sample.repo_on "accounts");;
        Register "users" (Sample.repo_on "users"))
         (Sample.fresh Sample.db_down).
Proof.
  split; [discriminate|].
  apply (Register_commutes "users" "accounts"); discriminate.
Defined.

(** X4. After [UnRegister(name)], resolving [name] with a handle stored
    panics, whatever was registered under the name before. *)
Theorem UnRegister_then_GetRepository {Repo}
    (ctx : Context) (name : string) (s : state Repo) (tx : sql_Tx) :
  Tx (uow s) = Some tx ->
  (UnRegister name;; GetRepository ctx name) s
  = Panics (final_state (UnRegister name s)).
Proof.
  intros Htx. open_state s.
  unfold UnRegister, GetRepository, call_factory, Repositories_index, get_uow,
    modify_uow, nil_dereference, mbind, M_bind. cbn.
  unfold RepositoryFactory in *. rewrite lookup_delete_eq. reflexivity.
Qed.

Lemma UnRegister_then_GetRepository_witness :
  Tx (uow (Sample.in_callback Sample.tx_good)) = Some Sample.tx_good
  /\ exists s',
       (UnRegister "users";; GetRepository Sample.ctx "users")
         (Sample.in_callback Sample.tx_good) = Panics s'.
Proof.
  split; [reflexivity|]. eexists.
  apply (UnRegister_then_GetRepository Sample.ctx "users"
           (Sample.in_callback Sample.tx_good) Sample.tx_good).
  reflexivity.
Defined.

(** X5. [UnRegister] of a name that is not registered changes nothing, and
    it undoes a registration made under a name that was free. *)
Theorem UnRegister_absent {Repo}
    (name : string) (fc : RepositoryFactory Repo) (s : state Repo) :
  Repositories (uow s) !! name = None ->
  UnRegister name s = Returns tt s
  /\ (Register name fc;; UnRegister name) s = Returns tt s.
Proof.
  intros Hname. open_state s.
  unfold Register, UnRegister, modify_uow, with_uow, set_Repositories,
    mbind, M_bind. cbn. unfold RepositoryFactory in *.
  rewrite delete_insert_id by exact Hname.
  rewrite delete_id by exact Hname. split; reflexivity.
Qed.

Lemma UnRegister_absent_witness :
  Repositories (uow (Sample.registered Sample.db_down)) !! "orders" = None
  /\ (Register "orders" (Sample.repo_on "orders");; UnRegister "orders")
       (Sample.registered Sample.db_down)
     = Returns tt (Sample.registered Sample.db_down).
Proof.
  split; [vm_compute; reflexivity|].
  apply (UnRegister_absent "orders" (Sample.repo_on "orders")
           (Sample.registered Sample.db_down)).
  vm_compute; reflexivity.
Defined.

(** X6. [Register] accepts the nil func without complaint; the name then
    resolves like an unregistered one, by a panic at the call. *)
Theorem Register_nil_then_GetRepository {Repo}
    (ctx : Context) (name : string) (s : state Repo) (tx : sql_Tx) :
  Tx (uow s) = Some tx ->
  Register name None s = Returns tt (final_state (Register name None s))
  /\ (Register name None;; GetRepository ctx name) s
     = Panics (final_state (Register (Repo := Repo) name None s)).
Proof.
  intros Htx. open_state s.
  unfold Register, GetRepository, call_factory, Repositories_index, get_uow,
    modify_uow, nil_dereference, mbind, M_bind. cbn.
  unfold RepositoryFactory in *. rewrite lookup_insert_eq. split; reflexivity.
Qed.

Lemma Register_nil_then_GetRepository_witness :
  Tx (uow (Sample.in_callback Sample.tx_good)) = Some Sample.tx_good
  /\ exists s',
       (Register "users" None;; GetRepository Sample.ctx "users")
         (Sample.in_callback Sample.tx_good) = Panics s'.
Proof.
  split; [reflexivity|]. eexists.
  apply (Register_nil_then_GetRepository Sample.ctx "users"
           (Sample.in_callback Sample.tx_good) Sample.tx_good).
  reflexivity.
Defined.

(** ** Lazy begin outside [Do] *)

(** X7. On a manager without a handle, [GetRepository] begins a
    transaction, stores its handle and invokes the registered factory on it.
    It does so without touching the mutex: a lazy begin outside [Do] leaves
    a handle stored with the mutex free. *)
Theorem GetRepository_lazy_begin {Repo}
    (ctx : Context) (name : string) (s : state Repo)
    (db : sql_DB) (tx : sql_Tx) (fc : option sql_Tx -> option Repo) :
  Tx (uow s) = None -> Db (uow s) = Some db ->
  db_BeginTx db ctx (trace s) = inl tx ->
  Repositories_index (uow s) name = Some fc ->
  GetRepository ctx name s
  = Returns (fc (Some tx), None)
      {| uow := set_Tx (Some tx) (uow s);
         trace := EvFactory name (Some tx) :: EvBeginTx ctx :: trace s |}
  /\ mu (uow (final_state (GetRepository ctx name s))) = mu (uow s).
Proof.
  intros Htx Hdb Hbegin Hfc.
  assert (Hrun : GetRepository ctx name s
    = Returns (fc (Some tx), None)
        {| uow := set_Tx (Some tx) (uow s);
           trace := EvFactory name (Some tx) :: EvBeginTx ctx :: trace s |}).
  { unfold GetRepository, call_factory, Db_BeginTx, get_uow, modify_uow,
      log_event, mbind, M_bind, mret, M_ret. cbv beta.
    rewrite Htx, Hdb. cbv beta iota. rewrite Hbegin. cbv beta iota.
    change (Repositories_index (uow (with_uow (set_Tx (Some tx))
                                       (log (EvBeginTx ctx) s))) name)
      with (Repositories_index (uow s) name).
    rewrite Hfc. reflexivity. }
  rewrite Hrun. split; reflexivity.
Qed.

Lemma GetRepository_lazy_begin_witness :
  Tx (uow (Sample.registered (Sample.db_of Sample.tx_good))) = None
  /\ exists s',
       GetRepository Sample.ctx "users"
         (Sample.registered (Sample.db_of Sample.tx_good))
       = Returns (Some ("users", Some 1), None) s'
       /\ Tx (uow s') = Some Sample.tx_good /\ mu (uow s') = false.
Proof.
  split; [reflexivity|].
  destruct (GetRepository_lazy_begin Sample.ctx "users"
              (Sample.registered (Sample.db_of Sample.tx_good))
              (Sample.db_of Sample.tx_good) Sample.tx_good
              (fun tx => Some ("users", tx_id <$> tx)))
    as [Hrun _]; try reflexivity.
  eexists. split; [exact Hrun|]. split; reflexivity.
Defined.

(** X8. When the lazy begin is refused, [GetRepository] returns the nil
    repository with the error of the storage engine and leaves the manager
    as it was: no handle is stored and no factory is invoked, whether the
    name is registered or not. *)
Theorem GetRepository_begin_refused {Repo}
    (ctx : Context) (name : string) (s : state Repo) (db : sql_DB) (err : error) :
  Tx (uow s) = None -> Db (uow s) = Some db ->
  db_BeginTx db ctx (trace s) = inr err ->
  GetRepository ctx name s = Returns (None, Some err) (log (EvBeginTx ctx) s).
Proof.
  intros Htx Hdb Hbegin.
  unfold GetRepository, Db_BeginTx, get_uow, mbind, M_bind, mret, M_ret.
  cbv beta. rewrite Htx, Hdb. cbv beta iota. rewrite Hbegin. reflexivity.
Qed.

Lemma GetRepository_begin_refused_witness :
  Tx (uow (Sample.registered Sample.db_down)) = None
  /\ GetRepository Sample.ctx "users" (Sample.registered Sample.db_down)
     = Returns (None, Some Sample.connection_refused)
         (log (EvBeginTx Sample.ctx) (Sample.registered Sample.db_down)).
Proof.
  split; [reflexivity|].
  apply (GetRepository_begin_refused Sample.ctx "users"
           (Sample.registered Sample.db_down) Sample.db_down
           Sample.connection_refused); reflexivity.
Defined.

(** X9. Outside [Do] too, a run of resolutions of registered names that
    starts without a handle begins exactly one transaction, at the first
    resolution, and hands its handle to every factory. *)
Theorem resolve_all_begins_once {Repo}
    (ctx : Context) (name : string) (names : list string) (s : state Repo)
    (db : sql_DB) (tx : sql_Tx) :
  Tx (uow s) = None -> Db (uow s) = Some db ->
  db_BeginTx db ctx (trace s) = inl tx ->
  Forall (fun n => is_Some (Repositories_index (uow s) n)) (name :: names) ->
  resolve_all ctx (name :: names) s
  = Returns None
      {| uow := set_Tx (Some tx) (uow s);
         trace := factory_events tx (name :: names) ++ EvBeginTx ctx :: trace s |}
  /\ count_events is_begin
       (trace (final_state (resolve_all ctx (name :: names) s)))
     = 1 + count_events is_begin (trace s).
Proof.
  intros Htx Hdb Hbegin Hreg.
  inversion Hreg as [|? ? [fc Hfc] Hrest]; subst.
  destruct (GetRepository_lazy_begin ctx name s db tx fc Htx Hdb Hbegin Hfc)
    as [Hfirst _].
  assert (Hrun : resolve_all ctx (name :: names) s
    = Returns None
        {| uow := set_Tx (Some tx) (uow s);
           trace := factory_events tx (name :: names) ++ EvBeginTx ctx :: trace s |}).
  { cbn [resolve_all]. unfold mbind, M_bind. rewrite Hfirst. cbn [snd].
    set (s1 := {| uow := set_Tx (Some tx) (uow s);
                  trace := EvFactory name (Some tx) :: EvBeginTx ctx :: trace s |}).
    rewrite (resolve_all_active ctx names s1 tx eq_refl Hrest).
    unfold factory_events. cbn. rewrite <- app_assoc. reflexivity. }
  rewrite Hrun. split; [reflexivity|]. cbn [final_state trace].
  rewrite count_events_app, count_begin_factory_events. reflexivity.
Qed.

Lemma resolve_all_begins_once_witness :
  Tx (uow (Sample.registered (Sample.db_of Sample.tx_good))) = None
  /\ count_events is_begin
       (trace (final_state
                 (resolve_all Sample.ctx ["users"; "accounts"; "users"]
                    (Sample.registered (Sample.db_of Sample.tx_good)))))
     = 1.
Proof.
  split; [reflexivity|].
  apply (resolve_all_begins_once Sample.ctx "users" ["accounts"; "users"]
           (Sample.registered (Sample.db_of Sample.tx_good))
           (Sample.db_of Sample.tx_good) Sample.tx_good); try reflexivity.
  repeat constructor; vm_compute; eexists; reflexivity.
Defined.

(** X10. A transaction begun lazily outside [Do] cannot be resolved through
    the manager: with a handle stored and the mutex free, [Rollback] issues
    the rollback and [CommitOrRollback] issues the commit, and each then
    dies releasing a mutex that nobody holds. *)
Theorem resolution_without_mutex_is_fatal {Repo}
    (s : state Repo) (res : option error) (tx : sql_Tx) :
  Tx (uow s) = Some tx -> mu (uow s) = false ->
  (exists s1, Rollback res s = Fatal s1
              /\ trace s1 = EvUnlock :: EvRollback tx :: trace s)
  /\ (exists s2, CommitOrRollback res s = Fatal s2
                 /\ count_events is_commit (trace s2)
                    = 1 + count_events is_commit (trace s)).
Proof.
  intros Htx Hmu. open_state s. run_methods. split.
  - destruct (tx_Rollback tx); cbn; eexists; split; reflexivity.
  - destruct (tx_Commit tx); cbn; [destruct (tx_Rollback tx); cbn|];
      eexists; split; reflexivity.
Qed.

Lemma resolution_without_mutex_is_fatal_witness :
  Tx (uow (Sample.lazily_begun (Sample.db_of Sample.tx_good))) = Some Sample.tx_good
  /\ mu (uow (Sample.lazily_begun (Sample.db_of Sample.tx_good))) = false
  /\ exists s2,
       CommitOrRollback None (Sample.lazily_begun (Sample.db_of Sample.tx_good))
       = Fatal s2.
Proof.
  split; [reflexivity|]. split; [reflexivity|].
  destruct (resolution_without_mutex_is_fatal
              (Sample.lazily_begun (Sample.db_of Sample.tx_good)) None
              Sample.tx_good) as [_ (s2 & Hrun & _)]; try reflexivity.
  exists s2. exact Hrun.
Defined.

(** ** Resolution in the Active state *)

(** X11. In the Active state [Rollback] always returns, after exactly one
    rollback on the stored handle and exactly one release of the mutex.
    When the rollback succeeds the handle is cleared and the value passed in
    comes back unchanged; when it fails the handle stays stored and the
    error of the rollback comes back. *)
Theorem Rollback_active {Repo} (s : state Repo) (res : option error) (tx : sql_Tx) :
  Active (uow s) tx ->
  exists s',
    Rollback res s
      = Returns (match tx_Rollback tx with Some r => Some r | None => res end) s'
    /\ Tx (uow s') = match tx_Rollback tx with Some _ => Some tx | None => None end
    /\ mu (uow s') = false
    /\ trace s' = EvUnlock :: EvRollback tx :: trace s.
Proof.
  intros Hact. destruct (tx_Rollback tx) as [r|] eqn:Hrb.
  - rewrite (Rollback_active_fails s res tx r Hact Hrb).
    eexists. split; [reflexivity|]. split; [apply Hact|]. split; reflexivity.
  - rewrite (Rollback_active_ok s res tx Hact Hrb).
    eexists. repeat split.
Qed.

Lemma Rollback_active_witness :
  Active (uow (Sample.in_callback Sample.tx_no_rollback)) Sample.tx_no_rollback
  /\ exists s',
       Rollback (Some Sample.insufficient_funds)
         (Sample.in_callback Sample.tx_no_rollback)
       = Returns (Some Sample.rollback_failed) s'
       /\ Tx (uow s') = Some Sample.tx_no_rollback
       /\ mu (uow s') = false.
Proof.
  split; [split; reflexivity|].
  destruct (Rollback_active (Sample.in_callback Sample.tx_no_rollback)
              (Some Sample.insufficient_funds) Sample.tx_no_rollback)
    as (s' & Hrun & Htx & Hmu & _).
  - split; reflexivity.
  - exists s'. split; [exact Hrun|]. split; [exact Htx|exact Hmu].
Defined.

(** X12. In the Active state, when the commit succeeds, [CommitOrRollback]
    issues that one commit and no rollback, clears the handle, releases the
    mutex once and returns the value passed in unchanged.  It commits even
    when the value passed in is a non-nil error. *)
Theorem CommitOrRollback_commits {Repo}
    (s : state Repo) (res : option error) (tx : sql_Tx) :
  Active (uow s) tx -> tx_Commit tx = None ->
  exists s',
    CommitOrRollback res s = Returns res s'
    /\ Idle (uow s')
    /\ trace s' = EvUnlock :: EvCommit tx :: trace s.
Proof.
  intros Hact Hc. rewrite (CommitOrRollback_active_ok s res tx Hact Hc).
  eexists. repeat split.
Qed.

Lemma CommitOrRollback_commits_witness :
  Active (uow (Sample.in_callback Sample.tx_good)) Sample.tx_good
  /\ tx_Commit Sample.tx_good = None
  /\ exists s',
       CommitOrRollback (Some Sample.insufficient_funds)
         (Sample.in_callback Sample.tx_good)
       = Returns (Some Sample.insufficient_funds) s'
       /\ Idle (uow s').
Proof.
  split; [split; reflexivity|]. split; [reflexivity|].
  destruct (CommitOrRollback_commits (Sample.in_callback Sample.tx_good)
              (Some Sample.insufficient_funds) Sample.tx_good)
    as (s' & Hrun & Hidle & _).
  - split; reflexivity.
  - reflexivity.
  - exists s'. split; [exact Hrun|exact Hidle].
Defined.

(** ** [Do]: exclusion and abnormal ends *)

(** X13. While the mutex is held, [Do] does nothing but wait for it: the
    callback is not run, no transaction is begun, and the error "transaction
    already started" is not returned, whether a handle is stored or not. *)
Theorem Do_waits_for_mutex {Repo}
    (ctx : Context) (fn : M Repo (option error)) (s : state Repo) :
  mu (uow s) = true -> Do ctx fn s = Blocks (log EvLock s).
Proof. intros Hmu. open_state s. reflexivity. Qed.

Lemma Do_waits_for_mutex_witness :
  mu (uow (Sample.in_callback Sample.tx_good)) = true
  /\ Do Sample.ctx Sample.fn_ok (Sample.in_callback Sample.tx_good)
     = Blocks (log EvLock (Sample.in_callback Sample.tx_good)).
Proof.
  split; [reflexivity|].
  apply (Do_waits_for_mutex Sample.ctx Sample.fn_ok
           (Sample.in_callback Sample.tx_good)).
  reflexivity.
Defined.

(** X14. A manager whose storage handle is nil, as [NewUow] builds it from
    a nil [db], can begin nothing: without a handle stored, [GetRepository]
    panics, and [Do] panics after it has taken the mutex, which stays held;
    the callback is not run. *)
Theorem nil_Db_panics {Repo}
    (ctx : Context) (name : string) (fn : M Repo (option error)) (s : state Repo) :
  Db (uow s) = None -> Idle (uow s) ->
  GetRepository ctx name s = Panics s
  /\ Do ctx fn s = Panics (with_uow (set_mu true) (log EvLock s)).
Proof. intros Hdb [Htx Hmu]. open_state s. split; reflexivity. Qed.

Lemma nil_Db_panics_witness :
  Db (uow {| uow := NewUow (Repo := Sample.repo) Sample.ctx None; trace := [] |})
    = None
  /\ Do Sample.ctx Sample.fn_ok {| uow := NewUow Sample.ctx None; trace := [] |}
     = Panics {| uow := set_mu true (NewUow Sample.ctx None); trace := [EvLock] |}.
Proof.
  split; [reflexivity|].
  apply (nil_Db_panics Sample.ctx "users" Sample.fn_ok
           {| uow := NewUow Sample.ctx None; trace := [] |}).
  - reflexivity.
  - split; reflexivity.
Defined.

(** X15. When the callback does not return but panics, [Do] ends in that
    panic at once: no rollback is issued and the mutex is not released, so
    the transaction stays open and the manager stays locked. *)
Theorem Do_callback_panic {Repo}
    (ctx : Context) (fn : M Repo (option error)) (s s2 : state Repo)
    (db : sql_DB) (tx : sql_Tx) :
  Idle (uow s) -> Db (uow s) = Some db ->
  db_BeginTx db ctx (EvLock :: trace s) = inl tx ->
  fn (callback_state ctx tx s) = Panics s2 ->
  Do ctx fn s = Panics s2.
Proof.
  intros Hidle Hdb Hbegin Hfn.
  rewrite (Do_from_idle ctx fn s db tx Hidle Hdb Hbegin).
  unfold mbind, M_bind. rewrite Hfn. reflexivity.
Qed.

Lemma Do_callback_panic_witness :
  Idle (uow (Sample.registered (Sample.db_of Sample.tx_good)))
  /\ exists s2,
       Do Sample.ctx (GetRepository Sample.ctx "orders" ≫= fun _ => mret None)
          (Sample.registered (Sample.db_of Sample.tx_good))
       = Panics s2
       /\ Active (uow s2) Sample.tx_good.
Proof.
  split; [split; reflexivity|].
  exists (Sample.in_callback Sample.tx_good). split; [|split; reflexivity].
  apply (Do_callback_panic Sample.ctx
           (GetRepository Sample.ctx "orders" ≫= fun _ => mret None)
           (Sample.registered (Sample.db_of Sample.tx_good))
           (Sample.in_callback Sample.tx_good)
           (Sample.db_of Sample.tx_good) Sample.tx_good); try reflexivity.
  split; reflexivity.
Defined.

(** X16. After [Do] has failed because the storage engine refused to open a
    transaction, the mutex it left held is released by a call to [Rollback]:
    that call returns "no transaction to rollback", issues nothing to the
    storage engine, and leaves the manager Idle, so that a later [Do]
    proceeds. *)
Theorem Rollback_after_refused_begin {Repo}
    (ctx : Context) (fn : M Repo (option error)) (s : state Repo)
    (db : sql_DB) (err : error) (res : option error) :
  Idle (uow s) -> Db (uow s) = Some db ->
  db_BeginTx db ctx (EvLock :: trace s) = inr err ->
  exists s1 s2,
    Do ctx fn s = Returns (Some err) s1
    /\ Rollback res s1
       = Returns (Some (errors_New "no transaction to rollback")) s2
    /\ trace s2 = EvUnlock :: trace s1
    /\ Idle (uow s2) /\ proceeds s2.
Proof.
  intros [Htx Hmu] Hdb Hbegin. open_state s. run_methods. rewrite Hbegin. cbn.
  eexists _, _. split; [reflexivity|]. split; [reflexivity|].
  split; [reflexivity|]. split; [split; reflexivity|].
  apply Idle_proceeds. split; reflexivity.
Qed.

Lemma Rollback_after_refused_begin_witness :
  Idle (uow (Sample.fresh Sample.db_down))
  /\ exists s1 s2,
       Do Sample.ctx Sample.fn_ok (Sample.fresh Sample.db_down)
       = Returns (Some Sample.connection_refused) s1
       /\ Rollback None s1
          = Returns (Some (errors_New "no transaction to rollback")) s2
       /\ Idle (uow s2).
Proof.
  split; [split; reflexivity|].
  destruct (Rollback_after_refused_begin Sample.ctx Sample.fn_ok
              (Sample.fresh Sample.db_down) Sample.db_down
              Sample.connection_refused None)
    as (s1 & s2 & Hdo & Hrb & _ & Hidle & _); try reflexivity.
  - split; reflexivity.
  - exists s1, s2. split; [exact Hdo|]. split; [exact Hrb|exact Hidle].
Defined.

(** X17. A callback must not resolve the transaction itself.  When it
    returns with the handle cleared and the mutex released, as after its own
    call to [Rollback] or [CommitOrRollback], [Do] does not return: with a
    non-nil result its [Rollback] dies releasing the free mutex, with a nil
    result its [CommitOrRollback] panics on the nil handle. *)
Theorem Do_callback_resolved_itself {Repo}
    (ctx : Context) (fn : M Repo (option error)) (s s2 : state Repo)
    (db : sql_DB) (tx : sql_Tx) (res : option error) :
  Idle (uow s) -> Db (uow s) = Some db ->
  db_BeginTx db ctx (EvLock :: trace s) = inl tx ->
  fn (callback_state ctx tx s) = Returns res s2 ->
  Idle (uow s2) ->
  Do ctx fn s
  = match res with
    | Some _ => Fatal (log EvUnlock s2)
    | None => Panics s2
    end.
Proof.
  intros Hidle Hdb Hbegin Hfn [Htx2 Hmu2].
  rewrite (Do_from_idle ctx fn s db tx Hidle Hdb Hbegin).
  unfold mbind, M_bind. rewrite Hfn. clear Hfn.
  open_state s2. destruct res; reflexivity.
Qed.

Lemma Do_callback_resolved_itself_witness :
  Idle (uow (Sample.registered (Sample.db_of Sample.tx_good)))
  /\ exists s2,
       Do Sample.ctx (Rollback (Some Sample.insufficient_funds))
          (Sample.registered (Sample.db_of Sample.tx_good))
       = Fatal s2.
Proof.
  split; [split; reflexivity|]. eexists.
  apply (Do_callback_resolved_itself Sample.ctx
           (Rollback (Some Sample.insufficient_funds))
           (Sample.registered (Sample.db_of Sample.tx_good))
           (final_state (Rollback (Some Sample.insufficient_funds)
                           (Sample.in_callback Sample.tx_good)))
           (Sample.db_of Sample.tx_good) Sample.tx_good
           (Some Sample.insufficient_funds)); try reflexivity.
  - split; reflexivity.
  - split; reflexivity.
Defined.

(** X18. Transactions never rewire the manager: however they end,
    [GetRepository], [Rollback] and [CommitOrRollback] leave the storage
    handle and the registry as they found them, and so does [Do] when its
    callback does. *)
Theorem transactions_keep_wiring {Repo}
    (ctx : Context) (name : string) (res : option error)
    (fn : M Repo (option error)) :
  keeps_wiring (GetRepository (Repo := Repo) ctx name)
  /\ keeps_wiring (Rollback (Repo := Repo) res)
  /\ keeps_wiring (CommitOrRollback (Repo := Repo) res)
  /\ (keeps_wiring fn -> keeps_wiring (Do ctx fn)).
Proof.
  assert (Hrb : forall r, keeps_wiring (Rollback (Repo := Repo) r)).
  { intros r s. open_state s. run_methods.
    destruct cur as [tx|]; cbn;
      [destruct (tx_Rollback tx); cbn|]; destruct locked; split; reflexivity. }
  assert (Hcr : forall r, keeps_wiring (CommitOrRollback (Repo := Repo) r)).
  { intros r s. open_state s. run_methods.
    destruct cur as [tx|]; cbn; [|split; reflexivity].
    destruct (tx_Commit tx); cbn; [destruct (tx_Rollback tx); cbn|];
      destruct locked; split; reflexivity. }
  split; [|split; [apply Hrb|split; [apply Hcr|]]].
  - intros s. open_state s. run_methods.
    destruct cur as [tx|]; cbn.
    + destruct (default None (reps !! name)); split; reflexivity.
    + destruct db as [db|]; cbn; [|split; reflexivity].
      destruct (db_BeginTx db ctx tr); cbn; [|split; reflexivity].
      destruct (default None (reps !! name)); split; reflexivity.
  - intros Hfn s.
    unfold Do, mu_Lock, get_uow, Db_BeginTx, modify_uow, mbind, M_bind, mret, M_ret.
    destruct s as [[db cur locked reps] tr]. cbn.
    destruct locked; cbn; [split; reflexivity|].
    destruct cur as [tx|]; cbn; [split; reflexivity|].
    destruct db as [db|]; cbn; [|split; reflexivity].
    destruct (db_BeginTx db ctx (EvLock :: tr)) as [tx|err]; cbn;
      [|split; reflexivity].
    match goal with |- context [fn ?s1] =>
      pose proof (Hfn s1) as Hs1; destruct (fn s1) as [r s2|s2|s2|s2] end;
      cbn in Hs1; try exact Hs1.
    destruct r as [e|].
    + destruct (Hrb (Some e) s2) as [H1 H2]. rewrite H1, H2. exact Hs1.
    + destruct (Hcr None s2) as [H1 H2]. rewrite H1, H2. exact Hs1.
Qed.

Lemma transactions_keep_wiring_witness :
  keeps_wiring (Do (Repo := Sample.repo) Sample.ctx Sample.fn_fail).
Proof.
  apply (transactions_keep_wiring Sample.ctx "users" None Sample.fn_fail).
  intros s. split; reflexivity.
Defined.

(** ** Construction and the current manager *)

(** X19. [NewUow] never fails and never inspects its arguments: it returns a
    nil error and a pointer that designated nothing before, to a manager
    that is Idle, has an empty registry and holds the [db] it was given,
    nil included.  [Current] then returns that same pointer, and every
    manager built earlier is still behind its own pointer, unchanged. *)
Theorem NewUow_call_spec {Repo}
    (ctx : Context) (db : option sql_DB) (p : process Repo) :
  let '(ptr, err, p') := NewUow_call ctx db p in
  err = None
  /\ deref p ptr = None
  /\ deref p' ptr = Some (NewUow ctx db)
  /\ Idle (NewUow (Repo := Repo) ctx db)
  /\ Repositories (NewUow (Repo := Repo) ctx db) = ∅
  /\ Db (NewUow (Repo := Repo) ctx db) = db
  /\ Current p' = ptr
  /\ forall q u, deref p q = Some u -> deref p' q = Some u.
Proof.
  unfold NewUow_call, deref, Current. cbn.
  split; [reflexivity|]. split; [apply lookup_ge_None_2; lia|].
  split; [apply list_lookup_middle; reflexivity|].
  split; [split; reflexivity|]. split; [reflexivity|]. split; [reflexivity|].
  split; [reflexivity|].
  intros [a|] u Hq; cbn in *; [|discriminate].
  apply lookup_app_l_Some. exact Hq.
Qed.

(** X20. [Current] is nil before any manager is built, and after several
    constructions it designates the last one only: the pointer returned by
    an earlier [NewUow] is a different pointer, and the manager behind it
    is no longer reachable through [Current]. *)
Theorem Current_is_last_built {Repo}
    (c1 c2 : Context) (d1 d2 : option sql_DB) (p : process Repo) :
  Current (process_start (Repo := Repo)) = None
  /\ let '(ptr1, _, p1) := NewUow_call c1 d1 p in
     let '(ptr2, _, p2) := NewUow_call c2 d2 p1 in
     Current p1 = ptr1
     /\ Current p2 = ptr2
     /\ ptr1 <> ptr2
     /\ deref p2 ptr1 = Some (NewUow c1 d1)
     /\ deref p2 (Current p2) = Some (NewUow c2 d2).
Proof.
  split; [reflexivity|].
  unfold NewUow_call, deref, Current. cbn.
  split; [reflexivity|]. split; [reflexivity|].
  split; [rewrite length_app; cbn; intros [= H]; lia|].
  split.
  - apply lookup_app_l_Some, list_lookup_middle. reflexivity.
  - apply list_lookup_middle. reflexivity.
Qed.
